(** * go-reddit: the link (post) service and the wiki service

    A shallow embedding of [link.go] (package geddit) and of the parts of
    the wiki service exercised by [reddit/wiki_test.go].

    Every service method is a straight-line program over a shared client:
    it builds a form, asks the client for a request, hands the request to
    [Do] and returns what came back.  The client is not part of the sources
    at hand, so it is a parameter of the development: the methods run in a
    state monad that threads the state of the network and records every
    call made on the client. *)

From Stdlib Require Import String Ascii List.
From stdpp Require Import base option strings pretty gmap list fin_maps.

Set Warnings "-register-all".
Open Scope string_scope.

(** ** Go's [error] and [errors.New] *)

(** An [error] is represented by its message; the nil error is [None]. *)
Definition error : Type := string.

Module errors.
Definition New (text : string) : error := text.
End errors.

(** ** Package [strings] *)

Module Strings.

(** [strings.Join]: the empty slice gives the empty string, otherwise
    the first element is written and every later element is written
    after a separator (the loop over [elems[1:]]). *)
Definition Join (elems : list string) (sep : string) : string :=
  match elems with
  | [] => ""
  | e0 :: rest => fold_left (fun b s => b +:+ sep +:+ s) rest e0
  end.

(** The comma-joined concatenation in the words of the specification:
    the elements in order, a separator between two neighbours. *)
Fixpoint joined (sep : string) (elems : list string) : string :=
  match elems with
  | [] => ""
  | [e] => e
  | e :: rest => e +:+ sep +:+ joined sep rest
  end.

(** Cutting a string at every occurrence of a one-character separator
    ([strings.Split] with a separator of length one). *)
Fixpoint Split (s : string) (sep : ascii) : list string :=
  match s with
  | EmptyString => [""]
  | String c s' =>
      if Ascii.eqb c sep then "" :: Split s' sep
      else match Split s' sep with
           | [] => [String c ""]
           | p :: ps => String c p :: ps
           end
  end.

(** [strings.ContainsRune], for a character of one byte. *)
Fixpoint ContainsRune (s : string) (c : ascii) : bool :=
  match s with
  | EmptyString => false
  | String c' s' => Ascii.eqb c' c || ContainsRune s' c
  end.

End Strings.

(** ** Package [net/url]: [url.Values] *)

Module url.

(** [type Values map[string][]string] *)
Abbreviation Values := (gmap string (list string)).

(** [Values.Set] replaces whatever the key held by the single value. *)
Definition Set_ (key value : string) (v : Values) : Values :=
  <[key := [value]]> v.

(** [Values.Add] appends the value to the ones the key holds. *)
Definition Add (key value : string) (v : Values) : Values :=
  <[key := (default [] (v !! key) ++ [value])%list]> v.

End url.

(** ** Package [encoding/json], as far as the decode targets need it *)

Module json.

(** A parsed JSON text.  Object members keep their order and their
    duplicates; a number keeps its literal. *)
Inductive Value : Type :=
| JNull
| JBool (b : bool)
| JNumber (literal : string)
| JString (s : string)
| JArray (elems : list Value)
| JObject (members : list (string * Value)).

(** A decode target: [unmarshal j v] decodes [j] into the value [v]
    that the target holds, the way [json.Unmarshal] fills a pointer. *)
Class Unmarshal (T : Type) := unmarshal : Value -> T -> T + error.

Definition upper (c : ascii) : ascii :=
  let n := nat_of_ascii c in
  if (97 <=? n)%nat && (n <=? 122)%nat then ascii_of_nat (n - 32) else c.

(** The case folding of member keys, on the bytes of the UTF-8 text: an
    ASCII letter folds to its upper case, and so do the two characters
    outside ASCII that fold into it, U+017F (bytes C5 BF) to [S] and
    U+212A (bytes E2 84 AA) to [K]; every other byte is kept. *)
Fixpoint fold (s : string) : string :=
  match s with
  | EmptyString => EmptyString
  | String c s' =>
      match c, s' with
      | "197"%char, String "191"%char rest => String "S" (fold rest)
      | "226"%char, String "132"%char (String "170"%char rest) => String "K" (fold rest)
      | _, _ => String (upper c) (fold s')
      end
  end.

(** A member key selects the struct field whose name it equals, letter
    case ignored.  The field names of this development are ASCII, so a
    key matches a name exactly when its folding is the name in upper
    case. *)
Definition fieldMatch (name key : string) : bool :=
  String.eqb (fold name) (fold key).

(** The members of an object are decoded one after the other into the
    same struct; the first error ends the decoding. *)
Fixpoint decodeMembers {T : Type} (setField : string -> Value -> T -> T + error)
    (members : list (string * Value)) (t : T) : T + error :=
  match members with
  | [] => inl t
  | (k, v) :: members' =>
      match setField k v t with
      | inl t' => decodeMembers setField members' t'
      | inr e => inr e
      end
  end.

Definition typeError (what : string) (goType : string) : error :=
  "json: cannot unmarshal " +:+ what +:+ " into Go value of type " +:+ goType.

Definition describe (j : Value) : string :=
  match j with
  | JNull => "null"
  | JBool _ => "bool"
  | JNumber _ => "number"
  | JString _ => "string"
  | JArray _ => "array"
  | JObject _ => "object"
  end.

(** A struct: [null] leaves it as it is, an object fills its fields. *)
Definition decodeStruct {T : Type} (goType : string)
    (setField : string -> Value -> T -> T + error) (j : Value) (t : T) : T + error :=
  match j with
  | JNull => inl t
  | JObject members => decodeMembers setField members t
  | _ => inr (typeError (describe j) goType)
  end.

(** A string: [null] leaves it as it is. *)
Definition decodeString (j : Value) (old : string) : string + error :=
  match j with
  | JNull => inl old
  | JString s => inl s
  | _ => inr (typeError (describe j) "string")
  end.

(** A pointer: [null] makes it nil; anything else is decoded into the
    struct it points to, a new zero struct when it was nil. *)
Definition decodePtr {T : Type} (zero : T) (dec : Value -> T -> T + error)
    (j : Value) (p : option T) : option T + error :=
  match j with
  | JNull => inl None
  | _ => match dec j (default zero p) with
         | inl t => inl (Some t)
         | inr e => inr e
         end
  end.

(** A slice of strings: [null] makes it nil, an array replaces it. *)
Fixpoint decodeStrings (elems : list Value) : list string + error :=
  match elems with
  | [] => inl []
  | j :: elems' =>
      match decodeString j "", decodeStrings elems' with
      | inl s, inl ss => inl (s :: ss)
      | inr e, _ => inr e
      | _, inr e => inr e
      end
  end.

Definition decodeStringSlice (j : Value) (old : list string) : list string + error :=
  match j with
  | JNull => inl []
  | JArray elems => decodeStrings elems
  | _ => inr (typeError (describe j) "[]string")
  end.

(** The nil target of [Do(ctx, req, nil)]: nothing is decoded. *)
Inductive noTarget : Type := nilTarget.

#[global] Instance Unmarshal_noTarget : Unmarshal noTarget := fun _ t => inl t.

End json.

Export json (Unmarshal, unmarshal, noTarget, nilTarget).

(** ** The data of link.go *)

(** [Submitted] is a newly submitted post on Reddit. *)
Module Submitted.
Record t : Type := mk {
  ID : string;      (* json:"id,omitempty" *)
  FullID : string;  (* json:"name,omitempty" *)
  URL : string      (* json:"url,omitempty" *)
}.

Definition zero : t := {| ID := ""; FullID := ""; URL := "" |}.

Definition setField (key : string) (j : json.Value) (s : t) : t + error :=
  if json.fieldMatch "id" key then
    match json.decodeString j (ID s) with
    | inl x => inl {| ID := x; FullID := FullID s; URL := URL s |}
    | inr e => inr e
    end
  else if json.fieldMatch "name" key then
    match json.decodeString j (FullID s) with
    | inl x => inl {| ID := ID s; FullID := x; URL := URL s |}
    | inr e => inr e
    end
  else if json.fieldMatch "url" key then
    match json.decodeString j (URL s) with
    | inl x => inl {| ID := ID s; FullID := FullID s; URL := x |}
    | inr e => inr e
    end
  else inl s.

#[global] Instance Unmarshal_t : Unmarshal t :=
  json.decodeStruct "geddit.Submitted" setField.
End Submitted.

(** [submittedLinkRoot]: the envelope of the submit response,
    [{"json": {"data": ...}}]. *)
Module submittedLinkRoot.
(** The anonymous struct of the field [JSON]. *)
Record inner : Type := mkInner {
  Data : option Submitted.t   (* *Submitted, json:"data,omitempty" *)
}.

Record t : Type := mk {
  JSON : inner                (* json:"json" *)
}.

(** [new(submittedLinkRoot)] *)
Definition new : t := {| JSON := {| Data := None |} |}.

Definition setInnerField (key : string) (j : json.Value) (i : inner) : inner + error :=
  if json.fieldMatch "data" key then
    match json.decodePtr Submitted.zero unmarshal j (Data i) with
    | inl p => inl {| Data := p |}
    | inr e => inr e
    end
  else inl i.

Definition setField (key : string) (j : json.Value) (r : t) : t + error :=
  if json.fieldMatch "json" key then
    match json.decodeStruct "struct" setInnerField j (JSON r) with
    | inl i => inl {| JSON := i |}
    | inr e => inr e
    end
  else inl r.

#[global] Instance Unmarshal_t : Unmarshal t :=
  json.decodeStruct "geddit.submittedLinkRoot" setField.
End submittedLinkRoot.

(** ** Package [go-querystring/query]: encoding a struct by its [url] tags *)

Module query.

(** [query.Values] of a struct type: what the reflection over the
    [url] tags of the type computes. *)
Class Encoder (T : Type) := Values : T -> url.Values + error.

Definition FormatBool (b : bool) : string := if b then "true" else "false".

(** A string field tagged [omitempty]: skipped when empty. *)
Definition addString (name : string) (s : string) (values : url.Values) : url.Values :=
  if String.eqb s "" then values else url.Add name s values.

(** A bool field tagged [omitempty]: skipped when false. *)
Definition addBool (name : string) (b : bool) (values : url.Values) : url.Values :=
  if b then url.Add name (FormatBool b) values else values.

(** A [*bool] field tagged [omitempty]: skipped when nil, otherwise the
    bool it points to is written, also when that is false. *)
Definition addBoolPtr (name : string) (p : option bool) (values : url.Values) : url.Values :=
  match p with
  | None => values
  | Some b => url.Add name (FormatBool b) values
  end.

End query.

(** [SubmitSelfOptions] are options used for selftext posts. *)
Module SubmitSelfOptions.
Record t : Type := mk {
  Subreddit : string;          (* url:"sr,omitempty" *)
  Title : string;              (* url:"title,omitempty" *)
  Text : string;               (* url:"text,omitempty" *)
  FlairID : string;            (* url:"flair_id,omitempty" *)
  FlairText : string;          (* url:"flair_text,omitempty" *)
  SendReplies : option bool;   (* *bool, url:"sendreplies,omitempty" *)
  NSFW : bool;                 (* url:"nsfw,omitempty" *)
  Spoiler : bool               (* url:"spoiler,omitempty" *)
}.

Definition reflectValue (o : t) (values : url.Values) : url.Values :=
  let values := query.addString "sr" (Subreddit o) values in
  let values := query.addString "title" (Title o) values in
  let values := query.addString "text" (Text o) values in
  let values := query.addString "flair_id" (FlairID o) values in
  let values := query.addString "flair_text" (FlairText o) values in
  let values := query.addBoolPtr "sendreplies" (SendReplies o) values in
  let values := query.addBool "nsfw" (NSFW o) values in
  query.addBool "spoiler" (Spoiler o) values.
End SubmitSelfOptions.

(** [SubmitURLOptions] are options used for link posts. *)
Module SubmitURLOptions.
Record t : Type := mk {
  Subreddit : string;          (* url:"sr,omitempty" *)
  Title : string;              (* url:"title,omitempty" *)
  URL : string;                (* url:"url,omitempty" *)
  FlairID : string;            (* url:"flair_id,omitempty" *)
  FlairText : string;          (* url:"flair_text,omitempty" *)
  SendReplies : option bool;   (* *bool, url:"sendreplies,omitempty" *)
  Resubmit : bool;             (* url:"resubmit,omitempty" *)
  NSFW : bool;                 (* url:"nsfw,omitempty" *)
  Spoiler : bool               (* url:"spoiler,omitempty" *)
}.

Definition reflectValue (o : t) (values : url.Values) : url.Values :=
  let values := query.addString "sr" (Subreddit o) values in
  let values := query.addString "title" (Title o) values in
  let values := query.addString "url" (URL o) values in
  let values := query.addString "flair_id" (FlairID o) values in
  let values := query.addString "flair_text" (FlairText o) values in
  let values := query.addBoolPtr "sendreplies" (SendReplies o) values in
  let values := query.addBool "resubmit" (Resubmit o) values in
  let values := query.addBool "nsfw" (NSFW o) values in
  query.addBool "spoiler" (Spoiler o) values.
End SubmitURLOptions.

(** The struct [submit] local to [SubmitSelf]: the options embedded, and
    the kind.  The encoder writes the struct's own fields first and the
    fields of an embedded struct after them. *)
Module selfSubmit.
Record t : Type := mk {
  Options : SubmitSelfOptions.t;   (* embedded *)
  Kind : string                    (* url:"kind,omitempty" *)
}.

#[global] Instance Encoder_t : query.Encoder t := fun v =>
  let values : url.Values := ∅ in
  let values := query.addString "kind" (Kind v) values in
  inl (SubmitSelfOptions.reflectValue (Options v) values).
End selfSubmit.

(** The struct [submit] local to [SubmitURL]. *)
Module linkSubmit.
Record t : Type := mk {
  Options : SubmitURLOptions.t;    (* embedded *)
  Kind : string                    (* url:"kind,omitempty" *)
}.

#[global] Instance Encoder_t : query.Encoder t := fun v =>
  let values : url.Values := ∅ in
  let values := query.addString "kind" (Kind v) values in
  inl (SubmitURLOptions.reflectValue (Options v) values).
End linkSubmit.

(** ** The client and the calls made on it *)

Section client.

(** [*http.Request], [*Response], and the state of everything behind
    the transport. *)
Context {Request Response World : Type}.

(** The client is a collaborator outside link.go.  It is given by how its
    three entry points behave: building a POST request with a form body,
    building a request without a body, and the round trip of [Do], which
    yields the response and either the parsed JSON body or an error. *)
Record Client : Type := mkClient {
  buildPostForm : string -> url.Values -> Request + error;
  buildRequest : string -> string -> Request + error;
  roundTrip : Request -> World -> (option Response * (json.Value + error)) * World
}.

(** What a method did on its client, in order. *)
Inductive Call : Type :=
| CallNewPostForm (path : string) (form : url.Values)
| CallNewRequest (method path : string)
| CallDo (req : Request).

Record Net : Type := mkNet {
  world : World;
  calls : list Call
}.

(** Programs over the client. *)
Definition M (A : Type) : Type := Net -> A * Net.

#[global] Instance M_ret : MRet M := fun A a n => (a, n).
#[global] Instance M_bind : MBind M := fun A B f m n => let '(a, n') := m n in f a n'.

Definition record (c : Call) (n : Net) : Net :=
  {| world := world n; calls := (calls n ++ [c])%list |}.

(** [client.NewPostForm(path, form)] *)
Definition NewPostForm (c : Client) (path : string) (form : url.Values) : M (Request + error) :=
  fun n => (buildPostForm c path form, record (CallNewPostForm path form) n).

(** [client.NewRequest(method, path, nil)] *)
Definition NewRequest (c : Client) (method path : string) : M (Request + error) :=
  fun n => (buildRequest c method path, record (CallNewRequest method path) n).

(** Modelled from the spec: [client.Do] is missing from the sources; it
    "performs the HTTP call and decodes the JSON body into target when
    non-nil".  The target is passed as the value [v] it points to, and the
    value it holds afterwards is returned next to the response and the
    error; a nil target is [nilTarget], which no body changes. *)
Definition Do {T : Type} `{!Unmarshal T} (c : Client) (req : Request) (v : T)
    : M (T * option Response * option error) :=
  fun n =>
    let '(resp, body, w) := roundTrip c req (world n) in
    let n' := record (CallDo req) {| world := w; calls := calls n |} in
    match body with
    | inr err => ((v, resp, Some err), n')
    | inl j =>
        match unmarshal j v with
        | inl v' => ((v', resp, None), n')
        | inr err => ((v, resp, Some err), n')
        end
    end.

(** The requests that went out, oldest first. *)
Definition sent (cs : list Call) : list Request :=
  omap (fun c => match c with CallDo req => Some req | _ => None end) cs.

(** The POST forms the client was asked to build, oldest first. *)
Definition posted (cs : list Call) : list (string * url.Values) :=
  omap (fun c => match c with CallNewPostForm p f => Some (p, f) | _ => None end) cs.

End client.

Arguments Client : clear implicits.
Arguments Call : clear implicits.
Arguments Net : clear implicits.

(** ** link.go: [LinkServiceOp] and its methods *)

Section LinkService.

Context {Request Response World : Type}.

(** [LinkServiceOp] implements the LinkService interface. *)
Record LinkServiceOp : Type := mkLinkServiceOp {
  client : Client Request Response World
}.

Local Abbreviation M := (@M Request World).

Definition submit {V : Type} `{!query.Encoder V} (s : LinkServiceOp) (v : V)
    : M (option Submitted.t * option Response * option error) :=
  let path := "api/submit" in
  match query.Values v with
  | inr err => mret (None, None, Some err)
  | inl form =>
      let form := url.Set_ "api_type" "json" form in
      r ← NewPostForm (client s) path form;
      match r with
      | inr err => mret (None, None, Some err)
      | inl req =>
          let root := submittedLinkRoot.new in
          '(root, resp, err) ← Do (client s) req root;
          match err with
          | Some err => mret (None, resp, Some err)
          | None => mret (submittedLinkRoot.Data (submittedLinkRoot.JSON root), resp, None)
          end
      end
  end.

(** SubmitSelf submits a self text post *)
Definition SubmitSelf (s : LinkServiceOp) (opts : SubmitSelfOptions.t) :=
  submit s (selfSubmit.mk opts "self").

(** SubmitURL submits a link post *)
Definition SubmitURL (s : LinkServiceOp) (opts : SubmitURLOptions.t) :=
  submit s (linkSubmit.mk opts "link").

(** EnableReplies enables inbox replies for a thing created by the client *)
Definition EnableReplies (s : LinkServiceOp) (id : string) : M (option Response * option error) :=
  let path := "api/sendreplies" in
  let form : url.Values := ∅ in
  let form := url.Set_ "id" id form in
  let form := url.Set_ "state" "true" form in
  r ← NewPostForm (client s) path form;
  match r with
  | inr err => mret (None, Some err)
  | inl req =>
      '(_, resp, err) ← Do (client s) req nilTarget;
      mret (resp, err)
  end.

(** DisableReplies dsables inbox replies for a thing created by the client *)
Definition DisableReplies (s : LinkServiceOp) (id : string) : M (option Response * option error) :=
  let path := "api/sendreplies" in
  let form : url.Values := ∅ in
  let form := url.Set_ "id" id form in
  let form := url.Set_ "state" "false" form in
  r ← NewPostForm (client s) path form;
  match r with
  | inr err => mret (None, Some err)
  | inl req =>
      '(_, resp, err) ← Do (client s) req nilTarget;
      mret (resp, err)
  end.

(** MarkNSFW marks a post as NSFW *)
Definition MarkNSFW (s : LinkServiceOp) (id : string) : M (option Response * option error) :=
  let path := "api/marknsfw" in
  let form : url.Values := ∅ in
  let form := url.Set_ "id" id form in
  r ← NewPostForm (client s) path form;
  match r with
  | inr err => mret (None, Some err)
  | inl req =>
      '(_, resp, err) ← Do (client s) req nilTarget;
      mret (resp, err)
  end.

(** UnmarkNSFW unmarks a post as NSFW *)
Definition UnmarkNSFW (s : LinkServiceOp) (id : string) : M (option Response * option error) :=
  let path := "api/unmarknsfw" in
  let form : url.Values := ∅ in
  let form := url.Set_ "id" id form in
  r ← NewPostForm (client s) path form;
  match r with
  | inr err => mret (None, Some err)
  | inl req =>
      '(_, resp, err) ← Do (client s) req nilTarget;
      mret (resp, err)
  end.

(** Spoiler marks a post as a spoiler *)
Definition Spoiler (s : LinkServiceOp) (id : string) : M (option Response * option error) :=
  let path := "api/spoiler" in
  let form : url.Values := ∅ in
  let form := url.Set_ "id" id form in
  r ← NewPostForm (client s) path form;
  match r with
  | inr err => mret (None, Some err)
  | inl req =>
      '(_, resp, err) ← Do (client s) req nilTarget;
      mret (resp, err)
  end.

(** Unspoiler unmarks a post as a spoiler *)
Definition Unspoiler (s : LinkServiceOp) (id : string) : M (option Response * option error) :=
  let path := "api/unspoiler" in
  let form : url.Values := ∅ in
  let form := url.Set_ "id" id form in
  r ← NewPostForm (client s) path form;
  match r with
  | inr err => mret (None, Some err)
  | inl req =>
      '(_, resp, err) ← Do (client s) req nilTarget;
      mret (resp, err)
  end.

(** Hide hides links with the specified ids *)
Definition Hide (s : LinkServiceOp) (ids : list string) : M (option Response * option error) :=
  if (length ids =? 0)%nat then
    mret (None, Some (errors.New "must provide at least 1 id"))
  else
    let path := "api/hide" in
    let form : url.Values := ∅ in
    let form := url.Set_ "id" (Strings.Join ids ",") form in
    r ← NewPostForm (client s) path form;
    match r with
    | inr err => mret (None, Some err)
    | inl req =>
        '(_, resp, err) ← Do (client s) req nilTarget;
        mret (resp, err)
    end.

(** Unhide unhides links with the specified ids *)
Definition Unhide (s : LinkServiceOp) (ids : list string) : M (option Response * option error) :=
  if (length ids =? 0)%nat then
    mret (None, Some (errors.New "must provide at least 1 id"))
  else
    let path := "api/unhide" in
    let form : url.Values := ∅ in
    let form := url.Set_ "id" (Strings.Join ids ",") form in
    r ← NewPostForm (client s) path form;
    match r with
    | inr err => mret (None, Some err)
    | inl req =>
        '(_, resp, err) ← Do (client s) req nilTarget;
        mret (resp, err)
    end.

End LinkService.

Arguments LinkServiceOp : clear implicits.

(** ** The wiki service

    wiki.go is not among the sources; reddit/wiki_test.go is.  The two
    methods below follow the specification and that test. *)

(** Modelled from the spec: the type [PermissionLevel] is missing from the
    sources.  The specification lists an enum of three levels; the test
    names two of them and expects [permlevel=1] for
    [PermissionApprovedContributorsOnly]. *)
Inductive PermissionLevel : Type :=
| PermissionSubredditWikiPermissions
| PermissionApprovedContributorsOnly
| PermissionListedEditorsOnly.

(** Modelled from the spec: the integer form of the enum, in the order the
    specification lists the levels. *)
Definition PermissionLevel_int (p : PermissionLevel) : nat :=
  match p with
  | PermissionSubredditWikiPermissions => 0
  | PermissionApprovedContributorsOnly => 1
  | PermissionListedEditorsOnly => 2
  end.

(** Modelled from the spec: the struct [WikiPageSettingsUpdateRequest] is
    missing from the sources: "optional listed flag, optional permission
    level".  The test fills [Listed] with a pointer ([Bool(false)]) and
    [PermissionLevel] with a bare constant of the enum, so the flag is
    absent when the pointer is nil and the level has no state of its own
    for absent: it is not set when it is the zero value of the enum. *)
Module WikiPageSettingsUpdateRequest.
Record t : Type := mk {
  Listed : option bool;
  PermissionLevel : PermissionLevel
}.

(** Modelled from the spec: the form of an update request, "[permlevel]
    (integer form of enum) and [listed] (boolean-as-string), only the
    fields present in the request are sent": the level is left out when
    its integer is zero, the flag when its pointer is nil. *)
Definition form (r : t) : url.Values :=
  let values : url.Values := ∅ in
  let values :=
    if (PermissionLevel_int (PermissionLevel r) =? 0)%nat then values
    else url.Set_ "permlevel" (pretty (PermissionLevel_int (PermissionLevel r))) values in
  match Listed r with
  | Some b => url.Set_ "listed" (query.FormatBool b) values
  | None => values
  end.
End WikiPageSettingsUpdateRequest.

(** Modelled from the spec: the listing envelope [{"kind": ..., "data":
    [...]}] that [Pages] decodes; its struct is missing from the sources. *)
Module wikiPageListing.
Record t : Type := mk {
  Kind : string;
  Data : list string
}.

Definition new : t := {| Kind := ""; Data := [] |}.

Definition setField (key : string) (j : json.Value) (r : t) : t + error :=
  if json.fieldMatch "kind" key then
    match json.decodeString j (Kind r) with
    | inl k => inl {| Kind := k; Data := Data r |}
    | inr e => inr e
    end
  else if json.fieldMatch "data" key then
    match json.decodeStringSlice j (Data r) with
    | inl d => inl {| Kind := Kind r; Data := d |}
    | inr e => inr e
    end
  else inl r.

#[global] Instance Unmarshal_t : Unmarshal t :=
  json.decodeStruct "wikiPageListing" setField.
End wikiPageListing.

Section WikiService.

Context {Request Response World : Type}.

(** [WikiPageSettings] is a decode target whose fields play no part
    here: its type, its decoding and its zero value are parameters. *)
Context {WikiPageSettings : Type} `{!Unmarshal WikiPageSettings}.
Variable newWikiPageSettings : WikiPageSettings.

Record WikiService : Type := mkWikiService {
  wikiClient : Client Request Response World
}.

Local Abbreviation M := (@M Request World).

(** Modelled from the spec: [WikiService.Pages] is missing from the
    sources: "GET [r/{subreddit}/wiki/pages] → decode ordered list of page
    names from a listing envelope". *)
Definition Pages (s : WikiService) (subreddit : string)
    : M (list string * option Response * option error) :=
  let path := "r/" +:+ subreddit +:+ "/wiki/pages" in
  r ← NewRequest (wikiClient s) "GET" path;
  match r with
  | inr err => mret ([], None, Some err)
  | inl req =>
      let root := wikiPageListing.new in
      '(root, resp, err) ← Do (wikiClient s) req root;
      match err with
      | Some err => mret ([], resp, Some err)
      | None => mret (wikiPageListing.Data root, resp, None)
      end
  end.

(** Modelled from the spec: [WikiService.UpdateSettings] is missing from
    the sources: it "fails with InvalidArgument when request is nil, else
    POST [r/{subreddit}/wiki/settings/{page}]" with the form of the
    request.  The message of the error is the one the test expects. *)
Definition UpdateSettings (s : WikiService) (subreddit page : string)
    (updateRequest : option WikiPageSettingsUpdateRequest.t)
    : M (option WikiPageSettings * option Response * option error) :=
  match updateRequest with
  | None => mret (None, None, Some (errors.New "updateRequest: cannot be nil"))
  | Some updateRequest =>
      let form := WikiPageSettingsUpdateRequest.form updateRequest in
      let path := "r/" +:+ subreddit +:+ "/wiki/settings/" +:+ page in
      r ← NewPostForm (wikiClient s) path form;
      match r with
      | inr err => mret (None, None, Some err)
      | inl req =>
          let root := newWikiPageSettings in
          '(root, resp, err) ← Do (wikiClient s) req root;
          match err with
          | Some err => mret (None, resp, Some err)
          | None => mret (Some root, resp, None)
          end
      end
  end.

End WikiService.

Arguments WikiService : clear implicits.

(** ** A client for running the methods

    A client that builds every request, or refuses every request, over a
    server that answers each request with the same body and remembers what
    it was sent. *)

Module Fixture.

Inductive request : Type :=
| Post (path : string) (form : url.Values)
| Other (method path : string).

Definition serve (body : json.Value + error) (req : request) (served : list request)
    : (option nat * (json.Value + error)) * list request :=
  ((Some 200, body), (served ++ [req])%list).

Definition answering (body : json.Value + error) : Client request nat (list request) :=
  {| buildPostForm path form := inl (Post path form);
     buildRequest method path := inl (Other method path);
     roundTrip := serve body |}.

Definition refusing (err : error) : Client request nat (list request) :=
  {| buildPostForm _ _ := inr err;
     buildRequest _ _ := inr err;
     roundTrip := serve (inl json.JNull) |}.

Definition start : Net request (list request) := {| world := []; calls := [] |}.

Definition link (body : json.Value + error) : LinkServiceOp request nat (list request) :=
  {| client := answering body |}.

Definition linkRefused (err : error) : LinkServiceOp request nat (list request) :=
  {| client := refusing err |}.

Definition wiki (body : json.Value + error) : WikiService request nat (list request) :=
  {| wikiClient := answering body |}.

Definition selfPost : SubmitSelfOptions.t :=
  {| SubmitSelfOptions.Subreddit := "test"; SubmitSelfOptions.Title := "a title";
     SubmitSelfOptions.Text := "some text"; SubmitSelfOptions.FlairID := "";
     SubmitSelfOptions.FlairText := ""; SubmitSelfOptions.SendReplies := Some false;
     SubmitSelfOptions.NSFW := false; SubmitSelfOptions.Spoiler := true |}.

(** [{"json":{"data":{"id":"abc","name":"t3_abc","url":"u"}}}] *)
Definition submitted : json.Value :=
  json.JObject [("json", json.JObject [("data",
    json.JObject [("id", json.JString "abc"); ("name", json.JString "t3_abc");
                  ("url", json.JString "u")])])].

(** [{"json":{"data":null}}] *)
Definition submittedNull : json.Value :=
  json.JObject [("json", json.JObject [("data", json.JNull)])].

(** [{"json":{}}] *)
Definition submittedAbsent : json.Value :=
  json.JObject [("json", json.JObject [])].

(** [{"kind":"wikipagelisting","data":["faq","index"]}] *)
Definition pages : json.Value :=
  json.JObject [("kind", json.JString "wikipagelisting");
                ("data", json.JArray [json.JString "faq"; json.JString "index"])].

(** A value that is no struct, which [query.Values] refuses. *)
Inductive notStruct : Type := anInt (i : nat).

#[global] Instance Encoder_notStruct : query.Encoder notStruct :=
  fun _ => inr "query: Values() expects struct input. Got int".

Definition linkPost : SubmitURLOptions.t :=
  {| SubmitURLOptions.Subreddit := "test"; SubmitURLOptions.Title := "";
     SubmitURLOptions.URL := "https://example.com"; SubmitURLOptions.FlairID := "";
     SubmitURLOptions.FlairText := "news"; SubmitURLOptions.SendReplies := None;
     SubmitURLOptions.Resubmit := true; SubmitURLOptions.NSFW := false;
     SubmitURLOptions.Spoiler := false |}.

End Fixture.

(** ** What a method that posts one form does on its client *)

Section onePOST.

Context {Request Response World : Type}.

(** The request is built from the path and the form; it goes out once
    when the client could build it, and not at all when it could not. *)
Definition onePOST (c : Client Request Response World) (path : string) (form : url.Values)
    : list (Call Request) :=
  CallNewPostForm path form ::
  match buildPostForm c path form with
  | inl req => [CallDo req]
  | inr _ => []
  end.

(** A method of one id runs without looking at the id: whatever the id,
    the form that is posted carries it as it is, and an error can only be
    the one of building the request or the one of the round trip. *)
Definition unvalidated
    (method : LinkServiceOp Request Response World -> string ->
              @M Request World (option Response * option error))
    (path : string) : Prop :=
  forall (s : LinkServiceOp Request Response World) (id : string) (n : Net Request World),
  exists form : url.Values,
    form !! "id" = Some [id] /\
    calls (method s id n).2 = (calls n ++ onePOST (client s) path form)%list /\
    forall e : error, (method s id n).1.2 = Some e ->
      buildPostForm (client s) path form = inr e \/
      exists req resp w,
        buildPostForm (client s) path form = inl req /\
        roundTrip (client s) req (world n) = ((resp, inr e), w).

End onePOST.

(** ** What a method returns and how much it asks of its client *)

Section outcomes.

Context {Request Response World : Type}.

(** A run hands back what the client gave it: the error of building the
    request, with no response and nothing sent; or else the response and
    the error of the round trip, whatever the body was. *)
Definition passesRoundTrip (c : Client Request Response World) (path : string)
    (form : url.Values) (run : @M Request World (option Response * option error)) : Prop :=
  forall n : Net Request World,
    match buildPostForm c path form with
    | inr err =>
        run n = ((None, Some err),
                 {| world := world n; calls := (calls n ++ [CallNewPostForm path form])%list |})
    | inl req =>
        forall (resp : option Response) (body : json.Value + error) (w : World),
          roundTrip c req (world n) = ((resp, body), w) ->
          run n = ((resp, match body with inl _ => None | inr err => Some err end),
                   {| world := w;
                      calls := (calls n ++ [CallNewPostForm path form; CallDo req])%list |})
    end.

(** A run only adds to the calls made so far; it asks for at most one
    POST form, sends no more requests than it asked for, and asks for no
    request of another kind. *)
Definition atMostOneRequest {A : Type} (run : @M Request World A) : Prop :=
  forall n : Net Request World,
  exists extra : list (Call Request),
    calls (run n).2 = (calls n ++ extra)%list /\
    length (posted extra) <= 1 /\
    length (sent extra) <= length (posted extra) /\
    Forall (fun c => forall method path, c <> CallNewRequest method path) extra.

End outcomes.

(** What an [omitempty] field of the options leaves under its key. *)
Definition stringField (s : string) : option (list string) :=
  if String.eqb s "" then None else Some [s].

Definition boolField (b : bool) : option (list string) :=
  if b then Some ["true"] else None.

Definition boolPtrField (p : option bool) : option (list string) :=
  match p with
  | None => None
  | Some true => Some ["true"]
  | Some false => Some ["false"]
  end.

(** * Properties *)

(** ** [strings.Join] *)

Lemma append_cons (x : ascii) (a b : string) : String x a +:+ b = String x (a +:+ b).
Proof. reflexivity. Qed.

Lemma append_assoc (a b c : string) : (a +:+ b) +:+ c = a +:+ (b +:+ c).
Proof.
  induction a as [|x a IH]; [reflexivity|].
  by rewrite !append_cons, IH.
Qed.

Lemma Join_fold_left (sep : string) (rest : list string) (e0 : string) :
  fold_left (fun b s => b +:+ sep +:+ s) rest e0 =
  match rest with
  | [] => e0
  | _ => e0 +:+ sep +:+ Strings.joined sep rest
  end.
Proof.
  revert e0. induction rest as [|e rest IH]; intros e0; [done|].
  cbn [fold_left]. rewrite IH. destruct rest as [|e' rest]; [done|].
  change (Strings.joined sep (e :: e' :: rest))
    with (e +:+ sep +:+ Strings.joined sep (e' :: rest)).
  by rewrite !append_assoc.
Qed.

(** The loop of [strings.Join] computes the joined string of the
    specification. *)
Lemma Join_joined (elems : list string) (sep : string) :
  Strings.Join elems sep = Strings.joined sep elems.
Proof.
  destruct elems as [|e0 rest]; [done|].
  unfold Strings.Join. rewrite Join_fold_left. by destruct rest.
Qed.

Lemma Split_app_no_sep (s t : string) (c : ascii) :
  Strings.ContainsRune s c = false ->
  Strings.Split (s +:+ String c t) c = s :: Strings.Split t c.
Proof.
  induction s as [|a s IH]; intros H.
  - change ("" +:+ String c t) with (String c t). cbn. by rewrite Ascii.eqb_refl.
  - rewrite append_cons. cbn in *.
    apply orb_false_iff in H as [Ha Hs]. by rewrite Ha, (IH Hs).
Qed.

Lemma Split_no_sep (s : string) (c : ascii) :
  Strings.ContainsRune s c = false -> Strings.Split s c = [s].
Proof.
  induction s as [|a s IH]; cbn; intros H; [done|].
  apply orb_false_iff in H as [Ha Hs]. by rewrite Ha, (IH Hs).
Qed.

(** The joined string keeps the ids and their order: when no id contains
    a comma, cutting the string at its commas gives the ids back. *)
Lemma Split_Join (ids : list string) :
  ids <> [] ->
  Forall (fun id => Strings.ContainsRune id "," = false) ids ->
  Strings.Split (Strings.Join ids ",") "," = ids.
Proof.
  intros Hne Hids. rewrite Join_joined.
  induction Hids as [|id ids Hid Hids IH]; [done|].
  destruct ids as [|id' ids].
  - by apply Split_no_sep.
  - change (Strings.joined "," (id :: id' :: ids))
      with (id +:+ String "," (Strings.joined "," (id' :: ids))).
    rewrite Split_app_no_sep by done. by rewrite IH.
Qed.

(** ** Forms *)

Lemma Set_empty (key value : string) :
  url.Set_ key value ∅ = {[ key := [value] ]}.
Proof. unfold url.Set_. apply insert_empty. Qed.

Lemma Set_id_state (id state : string) :
  url.Set_ "state" state (url.Set_ "id" id ∅) = {[ "id" := [id]; "state" := [state] ]}.
Proof.
  unfold url.Set_. rewrite insert_empty.
  apply map_eq; intros k.
  destruct (decide (k = "id")) as [->|Hid]; [by simplify_map_eq|].
  destruct (decide (k = "state")) as [->|Hst]; by simplify_map_eq.
Qed.

Lemma lookup_Add_ne (key value k : string) (values : url.Values) :
  key <> k -> url.Add key value values !! k = values !! k.
Proof. intros Hne. unfold url.Add. by rewrite lookup_insert_ne. Qed.

Lemma lookup_addString_ne (name s k : string) (values : url.Values) :
  name <> k -> query.addString name s values !! k = values !! k.
Proof.
  intros Hne. unfold query.addString.
  destruct (String.eqb s ""); [done | by apply lookup_Add_ne].
Qed.

Lemma lookup_addBool_ne (name k : string) (b : bool) (values : url.Values) :
  name <> k -> query.addBool name b values !! k = values !! k.
Proof. intros Hne. destruct b; [by apply lookup_Add_ne | done]. Qed.

Lemma lookup_addBoolPtr_ne (name k : string) (p : option bool) (values : url.Values) :
  name <> k -> query.addBoolPtr name p values !! k = values !! k.
Proof. intros Hne. destruct p; [by apply lookup_Add_ne | done]. Qed.

(** The kind is written first, into the empty form, and is not empty. *)
Lemma lookup_addString_kind (kind : string) :
  kind <> "" -> query.addString "kind" kind ∅ !! "kind" = Some [kind].
Proof.
  intros Hne. unfold query.addString.
  destruct (String.eqb_spec kind ""); [done|].
  unfold url.Add. by rewrite lookup_insert_eq, lookup_empty.
Qed.

(** No option field is encoded under the key [kind]. *)
Lemma SubmitSelfOptions_keeps_kind (o : SubmitSelfOptions.t) (values : url.Values) :
  SubmitSelfOptions.reflectValue o values !! "kind" = values !! "kind".
Proof.
  unfold SubmitSelfOptions.reflectValue.
  by rewrite !lookup_addBool_ne, lookup_addBoolPtr_ne, !lookup_addString_ne.
Qed.

Lemma SubmitURLOptions_keeps_kind (o : SubmitURLOptions.t) (values : url.Values) :
  SubmitURLOptions.reflectValue o values !! "kind" = values !! "kind".
Proof.
  unfold SubmitURLOptions.reflectValue.
  by rewrite !lookup_addBool_ne, lookup_addBoolPtr_ne, !lookup_addString_ne.
Qed.

(** ** Decoding the submit envelope *)

(** Members that are not [data], or are a [null] [data], leave a nil
    pointer nil. *)
Lemma decodeMembers_no_data (ms : list (string * json.Value)) :
  Forall (fun m => json.fieldMatch "data" m.1 = true -> m.2 = json.JNull) ms ->
  json.decodeMembers submittedLinkRoot.setInnerField ms {| submittedLinkRoot.Data := None |}
  = inl {| submittedLinkRoot.Data := None |}.
Proof.
  induction 1 as [|[k j] ms Hm _ IH]; [done|].
  cbn [json.decodeMembers]. unfold submittedLinkRoot.setInnerField at 1.
  cbn [fst snd] in Hm.
  destruct (json.fieldMatch "data" k); [|done].
  by rewrite (Hm eq_refl).
Qed.

Lemma unmarshal_no_data (ms : list (string * json.Value)) :
  Forall (fun m => json.fieldMatch "data" m.1 = true -> m.2 = json.JNull) ms ->
  unmarshal (json.JObject [("json", json.JObject ms)]) submittedLinkRoot.new
  = inl submittedLinkRoot.new.
Proof.
  intros Hms.
  unfold unmarshal, submittedLinkRoot.Unmarshal_t, json.decodeStruct.
  cbn [json.decodeMembers]. unfold submittedLinkRoot.setField.
  change (json.fieldMatch "json" "json") with true. cbv iota.
  unfold json.decodeStruct, submittedLinkRoot.new. cbn [submittedLinkRoot.JSON].
  by rewrite decodeMembers_no_data.
Qed.

(** ** Running the methods *)

Ltac run_step :=
  cbn [fst snd world calls];
  match goal with
  | |- context [@unmarshal noTarget _ ?j ?v] =>
      change (@unmarshal noTarget _ j v) with (@inl noTarget error v)
  | |- context [buildPostForm ?c ?p ?f] =>
      let E := fresh "Ebuild" in destruct (buildPostForm c p f) eqn:E
  | |- context [buildRequest ?c ?m ?p] =>
      let E := fresh "Ebuild" in destruct (buildRequest c m p) eqn:E
  | |- context [roundTrip ?c ?r ?w] =>
      let E := fresh "Etrip" in destruct (roundTrip c r w) as [[? [?|?]] ?] eqn:E
  | |- context [unmarshal ?j ?v] =>
      let E := fresh "Edecode" in destruct (unmarshal j v) eqn:E
  end.

Ltac run_method :=
  cbv [mbind mret M_bind M_ret NewPostForm NewRequest Do record]; cbv zeta;
  repeat run_step; cbn [fst snd world calls].

Section LinkProperties.

Context {Request Response World : Type}.
Implicit Types (s : LinkServiceOp Request Response World) (n : Net Request World).

Lemma Hide_calls s ids n :
  ids <> [] ->
  calls (Hide s ids n).2 =
    (calls n ++ onePOST (client s) "api/hide" {[ "id" := [Strings.Join ids ","] ]})%list.
Proof.
  intros Hne. destruct ids as [|id ids]; [done|].
  unfold Hide, onePOST. cbn [length Nat.eqb]. rewrite Set_empty.
  run_method; try rewrite <- app_assoc; done.
Qed.

Lemma Unhide_calls s ids n :
  ids <> [] ->
  calls (Unhide s ids n).2 =
    (calls n ++ onePOST (client s) "api/unhide" {[ "id" := [Strings.Join ids ","] ]})%list.
Proof.
  intros Hne. destruct ids as [|id ids]; [done|].
  unfold Unhide, onePOST. cbn [length Nat.eqb]. rewrite Set_empty.
  run_method; try rewrite <- app_assoc; done.
Qed.

Lemma posted_app (cs cs' : list (Call Request)) :
  posted (cs ++ cs') = (posted cs ++ posted cs')%list.
Proof. apply omap_app. Qed.

Lemma posted_onePOST (c : Client Request Response World) path form :
  posted (onePOST c path form) = [(path, form)].
Proof. unfold onePOST, posted. by destruct (buildPostForm c path form). Qed.

Lemma sent_onePOST (c : Client Request Response World) path form :
  sent (onePOST c path form) =
    match buildPostForm c path form with inl req => [req] | inr _ => [] end.
Proof. unfold onePOST, sent. by destruct (buildPostForm c path form). Qed.

Lemma submit_calls {V : Type} `{!query.Encoder V} s (v : V) n form :
  query.Values v = inl form ->
  calls (submit s v n).2 =
    (calls n ++ onePOST (client s) "api/submit" (url.Set_ "api_type" "json" form))%list.
Proof.
  intros Hform. unfold submit, onePOST. rewrite Hform.
  run_method; try rewrite <- app_assoc; done.
Qed.

Lemma submit_result {V : Type} `{!query.Encoder V} s (v : V) n form req resp w body root :
  query.Values v = inl form ->
  buildPostForm (client s) "api/submit" (url.Set_ "api_type" "json" form) = inl req ->
  roundTrip (client s) req (world n) = ((resp, inl body), w) ->
  unmarshal body submittedLinkRoot.new = inl root ->
  (submit s v n).1 = (submittedLinkRoot.Data (submittedLinkRoot.JSON root), resp, None).
Proof.
  intros Hform Hbuild Htrip Hdecode. unfold submit. rewrite Hform.
  cbv [mbind mret M_bind M_ret NewPostForm Do record]; cbn [world calls].
  rewrite Hbuild; cbn [world calls]. rewrite Htrip; cbn [world calls].
  by rewrite Hdecode.
Qed.

(** *** Hide and Unhide *)

(** C1: for every non-empty list of ids, [Hide] and [Unhide] make one
    POST each, to [api/hide] and to [api/unhide]: the client is asked
    once for a POST request with that path and a form whose field [id]
    is the ids joined by commas in the order given, and the request goes
    out once (the one case where nothing goes out is the client failing
    to build the request, which is [onePOST]'s second branch).  That the
    joined string keeps the order of the ids is [Split_Join]. *)
Theorem Hide_Unhide_post_comma_joined_ids s (ids : list string) n :
  ids <> [] ->
  let form : url.Values := {[ "id" := [Strings.joined "," ids] ]} in
  calls (Hide s ids n).2 = (calls n ++ onePOST (client s) "api/hide" form)%list /\
  calls (Unhide s ids n).2 = (calls n ++ onePOST (client s) "api/unhide" form)%list.
Proof.
  intros Hne form. subst form. rewrite <- Join_joined.
  split; [by apply Hide_calls | by apply Unhide_calls].
Qed.

(** C9: for every non-empty list of ids, [Hide] and [Unhide] post the
    same form, whose only field is [id] with the comma-joined ids; what
    differs is the path, [api/hide] against [api/unhide]. *)
Theorem Hide_Unhide_same_form s (ids : list string) n :
  ids <> [] ->
  exists form : url.Values,
    dom form = {[ "id" ]} /\
    form !! "id" = Some [Strings.Join ids ","] /\
    posted (calls (Hide s ids n).2) = (posted (calls n) ++ [("api/hide", form)])%list /\
    posted (calls (Unhide s ids n).2) = (posted (calls n) ++ [("api/unhide", form)])%list.
Proof.
  intros Hne. exists {[ "id" := [Strings.Join ids ","] ]}.
  rewrite Hide_calls, Unhide_calls by done.
  rewrite !posted_app, !posted_onePOST.
  split; [by rewrite dom_singleton_L|]. split; [by rewrite lookup_singleton_eq|done].
Qed.

(** *** The methods of one id *)

(** C7: for every id, each method of one id makes one POST whose form is
    exactly the documented set of fields: [EnableReplies] and
    [DisableReplies] post [id] and [state] ("true" and "false") to
    [api/sendreplies]; [MarkNSFW], [UnmarkNSFW], [Spoiler] and
    [Unspoiler] post the single field [id] to their paths. *)
Theorem single_id_methods_post_documented_fields s (id : string) n :
  calls (EnableReplies s id n).2 =
    (calls n ++ onePOST (client s) "api/sendreplies"
                  {[ "id" := [id]; "state" := ["true"] ]})%list /\
  calls (DisableReplies s id n).2 =
    (calls n ++ onePOST (client s) "api/sendreplies"
                  {[ "id" := [id]; "state" := ["false"] ]})%list /\
  calls (MarkNSFW s id n).2 =
    (calls n ++ onePOST (client s) "api/marknsfw" {[ "id" := [id] ]})%list /\
  calls (UnmarkNSFW s id n).2 =
    (calls n ++ onePOST (client s) "api/unmarknsfw" {[ "id" := [id] ]})%list /\
  calls (Spoiler s id n).2 =
    (calls n ++ onePOST (client s) "api/spoiler" {[ "id" := [id] ]})%list /\
  calls (Unspoiler s id n).2 =
    (calls n ++ onePOST (client s) "api/unspoiler" {[ "id" := [id] ]})%list.
Proof.
  unfold EnableReplies, DisableReplies, MarkNSFW, UnmarkNSFW, Spoiler, Unspoiler, onePOST.
  rewrite !Set_id_state, !Set_empty.
  repeat split; run_method; try rewrite <- app_assoc; done.
Qed.

Ltac prove_unvalidated :=
  let s := fresh "s" in let id := fresh "id" in let n := fresh "n" in
  intros s id n; cbv zeta;
  match goal with |- context [NewPostForm _ _ ?form] => exists form end;
  split; [by simplify_map_eq|]; split;
  [ unfold onePOST; run_method; try rewrite <- app_assoc; reflexivity
  | intros e; run_method; intros [= <-]; [right; eauto | left; reflexivity] ].

(** C8: the methods of one id do not validate the id: for every id, the
    empty string included, the request is built with that id as it is
    and sent, and an error they return is the error of building the
    request or of the round trip, never one of their own. *)
Theorem single_id_methods_do_not_validate :
  unvalidated (Request := Request) (Response := Response) (World := World)
    EnableReplies "api/sendreplies" /\
  unvalidated (Request := Request) (Response := Response) (World := World)
    DisableReplies "api/sendreplies" /\
  unvalidated (Request := Request) (Response := Response) (World := World)
    MarkNSFW "api/marknsfw" /\
  unvalidated (Request := Request) (Response := Response) (World := World)
    UnmarkNSFW "api/unmarknsfw" /\
  unvalidated (Request := Request) (Response := Response) (World := World)
    Spoiler "api/spoiler" /\
  unvalidated (Request := Request) (Response := Response) (World := World)
    Unspoiler "api/unspoiler".
Proof.
  unfold EnableReplies, DisableReplies, MarkNSFW, UnmarkNSFW, Spoiler, Unspoiler.
  repeat split; prove_unvalidated.
Qed.

(** *** Submitting *)

(** C4: for every options struct, [SubmitSelf] and [SubmitURL] post to
    [api/submit] a form that holds [kind] ("self" for [SubmitSelf],
    "link" for [SubmitURL]) and [api_type=json], whatever the optional
    fields of the options are. *)
Theorem Submit_posts_kind_and_api_type s n :
  (forall opts : SubmitSelfOptions.t, exists form : url.Values,
      calls (SubmitSelf s opts n).2 = (calls n ++ onePOST (client s) "api/submit" form)%list /\
      form !! "kind" = Some ["self"] /\ form !! "api_type" = Some ["json"]) /\
  (forall opts : SubmitURLOptions.t, exists form : url.Values,
      calls (SubmitURL s opts n).2 = (calls n ++ onePOST (client s) "api/submit" form)%list /\
      form !! "kind" = Some ["link"] /\ form !! "api_type" = Some ["json"]).
Proof.
  unfold SubmitSelf, SubmitURL.
  split; intros opts; eexists; (split; [apply submit_calls; reflexivity|]);
    unfold url.Set_; rewrite lookup_insert_eq, lookup_insert_ne by done;
    cbn [selfSubmit.Kind linkSubmit.Kind selfSubmit.Options linkSubmit.Options];
    (split; [|done]).
  - by rewrite SubmitSelfOptions_keeps_kind, lookup_addString_kind.
  - by rewrite SubmitURLOptions_keeps_kind, lookup_addString_kind.
Qed.

(** C3, as amended: [submit] unwraps one level of the envelope
    [{"json":{"data":...}}] and returns the pointer in [data]: for the
    envelope of the specification it points to
    [Submitted{ID:"abc",FullID:"t3_abc",URL:"u"}], and when [data] is
    null or absent it is the nil pointer, not a zero [Submitted], and
    there is no error. *)
Theorem submit_unwraps_envelope {V : Type} `{!query.Encoder V} s (v : V) n
    (form : url.Values) (req : Request) (resp : option Response) (w : World)
    (body : json.Value) :
  query.Values v = inl form ->
  buildPostForm (client s) "api/submit" (url.Set_ "api_type" "json" form) = inl req ->
  roundTrip (client s) req (world n) = ((resp, inl body), w) ->
  (forall root, unmarshal body submittedLinkRoot.new = inl root ->
     (submit s v n).1 = (submittedLinkRoot.Data (submittedLinkRoot.JSON root), resp, None)) /\
  (body = Fixture.submitted ->
     (submit s v n).1 =
       (Some {| Submitted.ID := "abc"; Submitted.FullID := "t3_abc"; Submitted.URL := "u" |},
        resp, None)) /\
  (forall ms : list (string * json.Value),
     body = json.JObject [("json", json.JObject ms)] ->
     Forall (fun m => json.fieldMatch "data" m.1 = true -> m.2 = json.JNull) ms ->
     (submit s v n).1 = (None, resp, None)).
Proof.
  intros Hform Hbuild Htrip. split; [|split].
  - intros root Hroot. by eapply submit_result.
  - intros ->.
    by apply (submit_result s v n form req resp w Fixture.submitted
                {| submittedLinkRoot.JSON :=
                     {| submittedLinkRoot.Data := Some (Submitted.mk "abc" "t3_abc" "u") |} |}).
  - intros ms -> Hms.
    apply (submit_result s v n form req resp w
             (json.JObject [("json", json.JObject ms)]) submittedLinkRoot.new); [done..|].
    by apply unmarshal_no_data.
Qed.

(** C10: whenever [submit], and so [SubmitSelf] and [SubmitURL], returns
    an error, be it from encoding the options, from building the request
    or from the round trip, the [Submitted] it returns is nil; a
    [Submitted] that is not nil comes with a nil error. *)
Theorem submit_error_without_Submitted {V : Type} `{!query.Encoder V} s (v : V) n
    (sub : option Submitted.t) (resp : option Response) (err : option error)
    (n' : Net Request World) :
  submit s v n = ((sub, resp, err), n') ->
  (err <> None -> sub = None) /\ (sub <> None -> err = None).
Proof.
  unfold submit. destruct (query.Values v) as [form|e].
  - run_method; intros [= <- <- <- <-]; split; congruence.
  - cbv [mret M_ret]. intros [= <- <- <- <-]; split; congruence.
Qed.

End LinkProperties.

(** ** The wiki service *)

Lemma decodeStrings_JString (names : list string) :
  json.decodeStrings (json.JString <$> names) = inl names.
Proof. induction names as [|name names IH]; [done|]. cbn. cbn in IH. by rewrite IH. Qed.

Lemma unmarshal_listing (kind : string) (names : list string) :
  unmarshal (json.JObject [("kind", json.JString kind);
                           ("data", json.JArray (json.JString <$> names))])
            wikiPageListing.new
  = inl {| wikiPageListing.Kind := kind; wikiPageListing.Data := names |}.
Proof.
  unfold unmarshal, wikiPageListing.Unmarshal_t, json.decodeStruct.
  cbn [json.decodeMembers]. unfold wikiPageListing.setField.
  change (json.fieldMatch "kind" "kind") with true.
  change (json.fieldMatch "kind" "data") with false.
  change (json.fieldMatch "data" "data") with true.
  cbv iota. cbn [json.decodeString json.decodeStringSlice wikiPageListing.Kind wikiPageListing.Data].
  by rewrite decodeStrings_JString.
Qed.


(** The request of reddit/wiki_test.go, [Listed: Bool(false)] with
    [PermissionApprovedContributorsOnly], gives the form the test expects:
    [permlevel=1] and [listed=false]. *)
Lemma form_of_test_request :
  WikiPageSettingsUpdateRequest.form
    {| WikiPageSettingsUpdateRequest.Listed := Some false;
       WikiPageSettingsUpdateRequest.PermissionLevel := PermissionApprovedContributorsOnly |}
  = url.Set_ "listed" "false" (url.Set_ "permlevel" "1" ∅).
Proof. reflexivity. Qed.

Section WikiProperties.

Context {Request Response World WikiPageSettings : Type} `{!Unmarshal WikiPageSettings}.
Variable newWikiPageSettings : WikiPageSettings.
Implicit Types (ls : LinkServiceOp Request Response World)
  (ws : WikiService Request Response World) (n : Net Request World).

(** C2: every local precondition failure, [Hide] or [Unhide] with no
    ids and [UpdateSettings] with a nil request, returns its error at
    once: no call is made on the client, so no request goes out, and the
    network is as it was. *)
Theorem precondition_failures_send_nothing ls ws (subreddit page : string) n :
  Hide ls [] n = ((None, Some "must provide at least 1 id"), n) /\
  Unhide ls [] n = ((None, Some "must provide at least 1 id"), n) /\
  UpdateSettings newWikiPageSettings ws subreddit page None n
    = ((None, None, Some "updateRequest: cannot be nil"), n).
Proof. by repeat split. Qed.


(** C6: [Pages] makes one GET to [r/{subreddit}/wiki/pages] and decodes
    the listing envelope into the page names, in the order of the array
    [data]; on [{"kind":"wikipagelisting","data":["faq","index"]}] that
    is [["faq"; "index"]]. *)
Theorem Pages_decodes_names_in_order ws (subreddit : string) n
    (req : Request) (resp : option Response) (w : World)
    (kind : string) (names : list string) :
  let path := "r/" +:+ subreddit +:+ "/wiki/pages" in
  buildRequest (wikiClient ws) "GET" path = inl req ->
  roundTrip (wikiClient ws) req (world n) =
    ((resp, inl (json.JObject [("kind", json.JString kind);
                               ("data", json.JArray (json.JString <$> names))])), w) ->
  Pages ws subreddit n =
    ((names, resp, None),
     {| world := w; calls := (calls n ++ [CallNewRequest "GET" path; CallDo req])%list |}).
Proof.
  intros path Hbuild Htrip. unfold Pages. fold path.
  cbv [mbind mret M_bind M_ret NewRequest Do record]; cbn [world calls].
  rewrite Hbuild; cbn [world calls]. rewrite Htrip; cbn [world calls].
  rewrite unmarshal_listing. cbn [wikiPageListing.Data]. by rewrite <- app_assoc.
Qed.

End WikiProperties.


(** ** The theorems at work on the fixture client *)

Lemma Hide_Unhide_post_comma_joined_ids_witness :
  ["t3_a"; "t3_b"] <> [] /\
  calls (Hide (Fixture.link (inl json.JNull)) ["t3_a"; "t3_b"] Fixture.start).2 =
    [CallNewPostForm "api/hide" {[ "id" := ["t3_a,t3_b"] ]};
     CallDo (Fixture.Post "api/hide" {[ "id" := ["t3_a,t3_b"] ]})] /\
  calls (Unhide (Fixture.link (inl json.JNull)) ["t3_a"; "t3_b"] Fixture.start).2 =
    [CallNewPostForm "api/unhide" {[ "id" := ["t3_a,t3_b"] ]};
     CallDo (Fixture.Post "api/unhide" {[ "id" := ["t3_a,t3_b"] ]})].
Proof.
  split; [discriminate|].
  apply (Hide_Unhide_post_comma_joined_ids
           (Fixture.link (inl json.JNull)) ["t3_a"; "t3_b"] Fixture.start).
  discriminate.
Defined.

Lemma Hide_Unhide_same_form_witness :
  ["t3_a"; "t3_b"] <> [] /\
  exists form : url.Values,
    dom form = {[ "id" ]} /\
    form !! "id" = Some ["t3_a,t3_b"] /\
    posted (calls (Hide (Fixture.linkRefused "no route") ["t3_a"; "t3_b"] Fixture.start).2)
      = [("api/hide", form)] /\
    posted (calls (Unhide (Fixture.linkRefused "no route") ["t3_a"; "t3_b"] Fixture.start).2)
      = [("api/unhide", form)].
Proof.
  split; [discriminate|].
  apply (Hide_Unhide_same_form
           (Fixture.linkRefused "no route") ["t3_a"; "t3_b"] Fixture.start).
  discriminate.
Defined.

(** The empty id goes out like any other, and the only error is the one
    the round trip gave. *)
Lemma single_id_methods_do_not_validate_witness :
  exists form : url.Values,
    form !! "id" = Some [""] /\
    calls (MarkNSFW (Fixture.link (inr "timeout")) "" Fixture.start).2 =
      [CallNewPostForm "api/marknsfw" form; CallDo (Fixture.Post "api/marknsfw" form)] /\
    forall e : error,
      (MarkNSFW (Fixture.link (inr "timeout")) "" Fixture.start).1.2 = Some e ->
      @inl Fixture.request error (Fixture.Post "api/marknsfw" form) = inr e \/
      exists req resp w,
        @inl Fixture.request error (Fixture.Post "api/marknsfw" form) = inl req /\
        Fixture.serve (inr "timeout") req [] = ((resp, inr e), w).
Proof.
  exact (proj1 (proj2 (proj2 single_id_methods_do_not_validate))
           (Fixture.link (inr "timeout")) "" Fixture.start).
Defined.

Lemma submit_unwraps_envelope_witness :
  (SubmitSelf (Fixture.link (inl Fixture.submitted)) Fixture.selfPost Fixture.start).1 =
    (Some {| Submitted.ID := "abc"; Submitted.FullID := "t3_abc"; Submitted.URL := "u" |},
     Some 200, None) /\
  (SubmitSelf (Fixture.link (inl Fixture.submittedNull)) Fixture.selfPost Fixture.start).1 =
    (None, Some 200, None) /\
  (SubmitSelf (Fixture.link (inl Fixture.submittedAbsent)) Fixture.selfPost Fixture.start).1 =
    (None, Some 200, None).
Proof.
  pose (v := selfSubmit.mk Fixture.selfPost "self").
  pose (form := SubmitSelfOptions.reflectValue Fixture.selfPost
                  (query.addString "kind" "self" ∅)).
  pose (req := Fixture.Post "api/submit" (url.Set_ "api_type" "json" form)).
  split; [|split].
  - apply (proj1 (proj2 (submit_unwraps_envelope
             (Fixture.link (inl Fixture.submitted)) v Fixture.start
             form req (Some 200) [req] Fixture.submitted
             eq_refl eq_refl eq_refl))).
    reflexivity.
  - apply (proj2 (proj2 (submit_unwraps_envelope
             (Fixture.link (inl Fixture.submittedNull)) v Fixture.start
             form req (Some 200) [req] Fixture.submittedNull
             eq_refl eq_refl eq_refl)) [("data", json.JNull)]).
    + reflexivity.
    + repeat constructor.
  - apply (proj2 (proj2 (submit_unwraps_envelope
             (Fixture.link (inl Fixture.submittedAbsent)) v Fixture.start
             form req (Some 200) [req] Fixture.submittedAbsent
             eq_refl eq_refl eq_refl)) []).
    + reflexivity.
    + constructor.
Defined.

(** A null or absent [data] gives the nil pointer, which is not a pointer
    to a zero [Submitted]. *)
Lemma submit_null_data_is_not_zero_Submitted :
  (SubmitSelf (Fixture.link (inl Fixture.submittedNull)) Fixture.selfPost Fixture.start).1
    <> (Some Submitted.zero, Some 200, None) /\
  (SubmitSelf (Fixture.link (inl Fixture.submittedAbsent)) Fixture.selfPost Fixture.start).1
    <> (Some Submitted.zero, Some 200, None).
Proof. split; vm_compute; discriminate. Qed.

Lemma submit_error_without_Submitted_witness :
  let run := submit (Fixture.linkRefused "no route")
               (selfSubmit.mk Fixture.selfPost "self") Fixture.start in
  run = ((None, None, Some "no route"), run.2) /\
  ((Some "no route" <> @None error -> @None Submitted.t = None) /\
   (@None Submitted.t <> None -> Some "no route" = @None error)).
Proof.
  intros run. split; [reflexivity|].
  apply (submit_error_without_Submitted (Fixture.linkRefused "no route")
           (selfSubmit.mk Fixture.selfPost "self") Fixture.start
           None None (Some "no route") run.2).
  reflexivity.
Defined.

Lemma Pages_decodes_names_in_order_witness :
  Pages (Fixture.wiki (inl Fixture.pages)) "testsubreddit" Fixture.start =
    ((["faq"; "index"], Some 200, None),
     {| world := [Fixture.Other "GET" "r/testsubreddit/wiki/pages"];
        calls := [CallNewRequest "GET" "r/testsubreddit/wiki/pages";
                  CallDo (Fixture.Other "GET" "r/testsubreddit/wiki/pages")] |}).
Proof.
  apply (Pages_decodes_names_in_order (Fixture.wiki (inl Fixture.pages)) "testsubreddit"
           Fixture.start (Fixture.Other "GET" "r/testsubreddit/wiki/pages") (Some 200)
           [Fixture.Other "GET" "r/testsubreddit/wiki/pages"]
           "wikipagelisting" ["faq"; "index"]);
    reflexivity.
Defined.


(** * Further properties of link.go *)

Lemma Join_cons_comma (a b : string) (rest : list string) :
  Strings.Join ((a +:+ "," +:+ b) :: rest) "," = Strings.Join (a :: b :: rest) ",".
Proof.
  rewrite !Join_joined. destruct rest as [|c rest]; [done|].
  change (Strings.joined "," ((a +:+ "," +:+ b) :: c :: rest))
    with ((a +:+ "," +:+ b) +:+ "," +:+ Strings.joined "," (c :: rest)).
  change (Strings.joined "," (a :: b :: c :: rest))
    with (a +:+ "," +:+ b +:+ "," +:+ Strings.joined "," (c :: rest)).
  by rewrite !append_assoc.
Qed.

Lemma joined_app (sep : string) (xs ys : list string) :
  xs <> [] -> ys <> [] ->
  Strings.joined sep (xs ++ ys) = Strings.joined sep xs +:+ sep +:+ Strings.joined sep ys.
Proof.
  intros Hxs Hys. induction xs as [|x xs IH]; [done|].
  destruct xs as [|x' xs].
  - destruct ys; done.
  - change (Strings.joined sep ((x :: x' :: xs) ++ ys))
      with (x +:+ sep +:+ Strings.joined sep ((x' :: xs) ++ ys)).
    rewrite IH by done.
    change (Strings.joined sep (x :: x' :: xs))
      with (x +:+ sep +:+ Strings.joined sep (x' :: xs)).
    by rewrite !append_assoc.
Qed.

Section LinkOutcomes.

Context {Request Response World : Type}.
Implicit Types (s : LinkServiceOp Request Response World) (n : Net Request World).

Lemma sent_app (cs cs' : list (Call Request)) :
  sent (cs ++ cs') = (sent cs ++ sent cs')%list.
Proof. apply omap_app. Qed.

Lemma onePOST_atMostOne (c : Client Request Response World) path form :
  length (posted (onePOST c path form)) <= 1 /\
  length (sent (onePOST c path form)) <= length (posted (onePOST c path form)) /\
  Forall (fun c => forall method path, c <> CallNewRequest method path) (onePOST c path form).
Proof.
  rewrite posted_onePOST, sent_onePOST. unfold onePOST.
  destruct (buildPostForm c path form); cbn; repeat split; try lia;
    repeat constructor; discriminate.
Qed.

Ltac prove_passes :=
  let n := fresh "n" in
  intros n; run_method;
  [ intros ? ? ? [= <- <- <-]; rewrite <- ?app_assoc; reflexivity
  | intros ? ? ? [= <- <- <-]; rewrite <- ?app_assoc; reflexivity
  | reflexivity ].

(** *** Hide and Unhide *)

(** X1: [Hide] and [Unhide] make no call on the client exactly when they are
    given no id: the count of the ids is the only thing they check. *)
Theorem Hide_Unhide_call_free_iff_no_ids s (ids : list string) n :
  (calls (Hide s ids n).2 = calls n <-> ids = []) /\
  (calls (Unhide s ids n).2 = calls n <-> ids = []).
Proof.
  split; (split; [|by intros ->]); intros Hcalls;
    destruct ids as [|id ids]; try done; exfalso.
  - rewrite Hide_calls in Hcalls by done.
    apply (f_equal length) in Hcalls. rewrite length_app in Hcalls.
    unfold onePOST in Hcalls. cbn [length] in Hcalls. lia.
  - rewrite Unhide_calls in Hcalls by done.
    apply (f_equal length) in Hcalls. rewrite length_app in Hcalls.
    unfold onePOST in Hcalls. cbn [length] in Hcalls. lia.
Qed.

(** X2: Given at least one id, [Hide] and [Unhide] return what the client
    gave them: the error of building the request with a nil response and
    nothing sent, or else the response and the error of [Do] as they are;
    the body of the answer plays no part. *)
Theorem Hide_Unhide_pass_round_trip s (ids : list string) :
  ids <> [] ->
  passesRoundTrip (client s) "api/hide" {[ "id" := [Strings.Join ids ","] ]} (Hide s ids) /\
  passesRoundTrip (client s) "api/unhide" {[ "id" := [Strings.Join ids ","] ]} (Unhide s ids).
Proof.
  intros Hne. destruct ids as [|id ids]; [done|].
  unfold Hide, Unhide. cbn [length Nat.eqb]. rewrite !Set_empty.
  split; prove_passes.
Qed.

(** X3: The methods of one id return what the client gave them, in the same
    way. *)
Theorem single_id_methods_pass_round_trip s (id : string) :
  passesRoundTrip (client s) "api/sendreplies"
    {[ "id" := [id]; "state" := ["true"] ]} (EnableReplies s id) /\
  passesRoundTrip (client s) "api/sendreplies"
    {[ "id" := [id]; "state" := ["false"] ]} (DisableReplies s id) /\
  passesRoundTrip (client s) "api/marknsfw" {[ "id" := [id] ]} (MarkNSFW s id) /\
  passesRoundTrip (client s) "api/unmarknsfw" {[ "id" := [id] ]} (UnmarkNSFW s id) /\
  passesRoundTrip (client s) "api/spoiler" {[ "id" := [id] ]} (Spoiler s id) /\
  passesRoundTrip (client s) "api/unspoiler" {[ "id" := [id] ]} (Unspoiler s id).
Proof.
  unfold EnableReplies, DisableReplies, MarkNSFW, UnmarkNSFW, Spoiler, Unspoiler.
  rewrite !Set_id_state, !Set_empty.
  repeat split; prove_passes.
Qed.

(** X4: The id field that [Hide] and [Unhide] post can be cut back into the
    ids: when no id contains a comma, splitting the field at its commas
    gives the ids that were passed, in their order. *)
Theorem Hide_Unhide_post_recoverable_ids s (ids : list string) n :
  ids <> [] ->
  Forall (fun id => Strings.ContainsRune id "," = false) ids ->
  exists field : string,
    Strings.Split field "," = ids /\
    posted (calls (Hide s ids n).2) = (posted (calls n) ++ [("api/hide", {[ "id" := [field] ]})])%list /\
    posted (calls (Unhide s ids n).2) = (posted (calls n) ++ [("api/unhide", {[ "id" := [field] ]})])%list.
Proof.
  intros Hne Hids. exists (Strings.Join ids ","). split; [by apply Split_Join|].
  rewrite Hide_calls, Unhide_calls by done.
  by rewrite !posted_app, !posted_onePOST.
Qed.

(** X5: Commas inside an id are not escaped: an id with a comma in it is
    hidden, or unhidden, exactly as the two ids around the comma are. *)
Theorem Hide_Unhide_do_not_escape_commas s (a b : string) (rest : list string) n :
  Hide s ((a +:+ "," +:+ b) :: rest) n = Hide s (a :: b :: rest) n /\
  Unhide s ((a +:+ "," +:+ b) :: rest) n = Unhide s (a :: b :: rest) n.
Proof.
  unfold Hide, Unhide. cbn [length Nat.eqb]. by rewrite Join_cons_comma.
Qed.

(** X6: Hiding two lists of ids in one call posts the two id fields with a
    comma between them. *)
Theorem Hide_Unhide_join_of_app s (xs ys : list string) n :
  xs <> [] -> ys <> [] ->
  let field := Strings.Join xs "," +:+ "," +:+ Strings.Join ys "," in
  posted (calls (Hide s (xs ++ ys)%list n).2) =
    (posted (calls n) ++ [("api/hide", {[ "id" := [field] ]})])%list /\
  posted (calls (Unhide s (xs ++ ys)%list n).2) =
    (posted (calls n) ++ [("api/unhide", {[ "id" := [field] ]})])%list.
Proof.
  intros Hxs Hys field. subst field.
  assert ((xs ++ ys)%list <> []) as Hne by (destruct xs; done).
  rewrite Hide_calls, Unhide_calls by done.
  rewrite !posted_app, !posted_onePOST.
  by rewrite !Join_joined, joined_app.
Qed.

(** *** Submitting *)

(** X7: The ways [submit] fails.  When the options cannot be encoded, nothing
    is asked of the client.  When the request cannot be built, nothing is
    sent and there is no response.  When [Do] fails, in the round trip or
    in decoding the body, the response it gave is returned with the error.
    In every case the [Submitted] is nil. *)
Theorem submit_failures {V : Type} `{!query.Encoder V} s (v : V) n :
  (forall err, query.Values v = inr err ->
     submit s v n = ((None, None, Some err), n)) /\
  (forall form err,
     query.Values v = inl form ->
     buildPostForm (client s) "api/submit" (url.Set_ "api_type" "json" form) = inr err ->
     submit s v n =
       ((None, None, Some err),
        {| world := world n;
           calls := (calls n ++
             [CallNewPostForm "api/submit" (url.Set_ "api_type" "json" form)])%list |})) /\
  (forall form req resp body w err,
     query.Values v = inl form ->
     buildPostForm (client s) "api/submit" (url.Set_ "api_type" "json" form) = inl req ->
     roundTrip (client s) req (world n) = ((resp, body), w) ->
     body = inr err \/
       (exists j, body = inl j /\ unmarshal j submittedLinkRoot.new = inr err) ->
     submit s v n =
       ((None, resp, Some err),
        {| world := w;
           calls := (calls n ++
             [CallNewPostForm "api/submit" (url.Set_ "api_type" "json" form);
              CallDo req])%list |})).
Proof.
  split; [|split].
  - intros err Hv. unfold submit. by rewrite Hv.
  - intros form err Hv Hbuild. unfold submit. rewrite Hv.
    cbv [mbind mret M_bind M_ret NewPostForm record]. by rewrite Hbuild.
  - intros form req resp body w err Hv Hbuild Htrip Hbody. unfold submit. rewrite Hv.
    cbv [mbind mret M_bind M_ret NewPostForm Do record]; cbn [world calls].
    rewrite Hbuild; cbn [world calls]. rewrite Htrip; cbn [world calls].
    destruct Hbody as [->|(j & -> & Hj)]; [|rewrite Hj]; by rewrite <- app_assoc.
Qed.

(** X8: [submit] decodes the fields of the post from the keys of the struct
    tags: [ID] from [id], [FullID] from [name], [URL] from [url]. *)
Theorem submit_returns_decoded_fields {V : Type} `{!query.Encoder V} s (v : V) n
    (form : url.Values) (req : Request) (resp : option Response) (w : World)
    (id name link : string) :
  query.Values v = inl form ->
  buildPostForm (client s) "api/submit" (url.Set_ "api_type" "json" form) = inl req ->
  roundTrip (client s) req (world n) =
    ((resp, inl (json.JObject [("json", json.JObject [("data",
        json.JObject [("id", json.JString id); ("name", json.JString name);
                      ("url", json.JString link)])])])), w) ->
  submit s v n =
    ((Some {| Submitted.ID := id; Submitted.FullID := name; Submitted.URL := link |},
      resp, None),
     {| world := w;
        calls := (calls n ++
          [CallNewPostForm "api/submit" (url.Set_ "api_type" "json" form);
           CallDo req])%list |}).
Proof.
  intros Hv Hbuild Htrip. unfold submit. rewrite Hv.
  cbv [mbind mret M_bind M_ret NewPostForm Do record]; cbn [world calls].
  rewrite Hbuild; cbn [world calls]. rewrite Htrip; cbn [world calls].
  by rewrite <- app_assoc.
Qed.

Lemma single_id_calls s (id : string) :
  (forall n, calls (EnableReplies s id n).2 =
     (calls n ++ onePOST (client s) "api/sendreplies" {[ "id" := [id]; "state" := ["true"] ]})%list) /\
  (forall n, calls (DisableReplies s id n).2 =
     (calls n ++ onePOST (client s) "api/sendreplies" {[ "id" := [id]; "state" := ["false"] ]})%list) /\
  (forall n, calls (MarkNSFW s id n).2 =
     (calls n ++ onePOST (client s) "api/marknsfw" {[ "id" := [id] ]})%list) /\
  (forall n, calls (UnmarkNSFW s id n).2 =
     (calls n ++ onePOST (client s) "api/unmarknsfw" {[ "id" := [id] ]})%list) /\
  (forall n, calls (Spoiler s id n).2 =
     (calls n ++ onePOST (client s) "api/spoiler" {[ "id" := [id] ]})%list) /\
  (forall n, calls (Unspoiler s id n).2 =
     (calls n ++ onePOST (client s) "api/unspoiler" {[ "id" := [id] ]})%list).
Proof.
  unfold EnableReplies, DisableReplies, MarkNSFW, UnmarkNSFW, Spoiler, Unspoiler, onePOST.
  rewrite !Set_id_state, !Set_empty.
  repeat split; intros n; run_method; try rewrite <- app_assoc; done.
Qed.

(** X9: No method of the link service asks its client for more than one POST
    form, sends more than the one request built from it, or retries:
    whatever the client answers, the calls made so far stay as they are
    and at most one request goes out. *)
Theorem link_methods_send_at_most_one_request s :
  (forall id : string,
     atMostOneRequest (EnableReplies s id) /\ atMostOneRequest (DisableReplies s id) /\
     atMostOneRequest (MarkNSFW s id) /\ atMostOneRequest (UnmarkNSFW s id) /\
     atMostOneRequest (Spoiler s id) /\ atMostOneRequest (Unspoiler s id)) /\
  (forall ids : list string,
     atMostOneRequest (Hide s ids) /\ atMostOneRequest (Unhide s ids)) /\
  (forall (V : Type) (E : query.Encoder V) (v : V), atMostOneRequest (submit s v)).
Proof.
  split; [|split].
  - intros id.
    destruct (single_id_calls s id) as (H1 & H2 & H3 & H4 & H5 & H6).
    repeat split; intros n; eexists;
      (split; [first [apply H1 | apply H2 | apply H3 | apply H4 | apply H5 | apply H6]
              | apply onePOST_atMostOne]).
  - intros ids. destruct ids as [|id ids].
    + split; intros n; exists []; cbn; rewrite app_nil_r; repeat split; (lia || constructor).
    + split; intros n; eexists;
        (split; [first [by apply Hide_calls | by apply Unhide_calls]
                | apply onePOST_atMostOne]).
  - intros V E v n. destruct (query.Values v) as [form|err] eqn:Hv.
    + eexists. split; [by apply submit_calls | apply onePOST_atMostOne].
    + exists []. unfold submit. rewrite Hv. cbn. rewrite app_nil_r.
      repeat split; (lia || constructor).
Qed.

End LinkOutcomes.

(** *** The form of a submission *)

Lemma lookup_Add_eq (key value : string) (values : url.Values) :
  url.Add key value values !! key = Some (default [] (values !! key) ++ [value])%list.
Proof. unfold url.Add. by rewrite lookup_insert_eq. Qed.

Lemma lookup_addString_eq (name s : string) (values : url.Values) :
  values !! name = None -> query.addString name s values !! name = stringField s.
Proof.
  intros Hnone. unfold query.addString, stringField.
  destruct (String.eqb s ""); [done|]. by rewrite lookup_Add_eq, Hnone.
Qed.

Lemma lookup_addBool_eq (name : string) (b : bool) (values : url.Values) :
  values !! name = None -> query.addBool name b values !! name = boolField b.
Proof.
  intros Hnone. unfold query.addBool, boolField.
  destruct b; [|done]. by rewrite lookup_Add_eq, Hnone.
Qed.

Lemma lookup_addBoolPtr_eq (name : string) (p : option bool) (values : url.Values) :
  values !! name = None -> query.addBoolPtr name p values !! name = boolPtrField p.
Proof.
  intros Hnone. unfold query.addBoolPtr, boolPtrField.
  destruct p as [[|]|]; [| |done]; by rewrite lookup_Add_eq, Hnone.
Qed.

(** Looking a key up in an encoded form: the layers written under other
    keys are stepped over, the layer of the key gives the field. *)
Ltac lookup_field :=
  unfold url.Set_;
  repeat first
    [ rewrite lookup_insert_ne by done
    | rewrite lookup_addString_ne by done
    | rewrite lookup_addBool_ne by done
    | rewrite lookup_addBoolPtr_ne by done
    | rewrite lookup_addString_eq
    | rewrite lookup_addBool_eq
    | rewrite lookup_addBoolPtr_eq
    | rewrite lookup_empty ];
  try done.

Section SubmitForms.

Context {Request Response World : Type}.
Implicit Types (s : LinkServiceOp Request Response World) (n : Net Request World).

(** X10: [SubmitSelf] posts a form in which every option that is set has its
    key with one value and every option that is not set has no key: a
    string is set when it is not empty, a flag when it is true, and
    [SendReplies] when it is not nil, so that a pointer to [false] is sent
    as "false".  The form has no key besides those, [kind] and
    [api_type]; in particular it never has [url] or [resubmit]. *)
Theorem SubmitSelf_form_fields s (opts : SubmitSelfOptions.t) n :
  exists form : url.Values,
    posted (calls (SubmitSelf s opts n).2) = (posted (calls n) ++ [("api/submit", form)])%list /\
    form !! "sr" = stringField (SubmitSelfOptions.Subreddit opts) /\
    form !! "title" = stringField (SubmitSelfOptions.Title opts) /\
    form !! "text" = stringField (SubmitSelfOptions.Text opts) /\
    form !! "flair_id" = stringField (SubmitSelfOptions.FlairID opts) /\
    form !! "flair_text" = stringField (SubmitSelfOptions.FlairText opts) /\
    form !! "sendreplies" =
      match SubmitSelfOptions.SendReplies opts with
      | None => None
      | Some true => Some ["true"]
      | Some false => Some ["false"]
      end /\
    form !! "nsfw" = boolField (SubmitSelfOptions.NSFW opts) /\
    form !! "spoiler" = boolField (SubmitSelfOptions.Spoiler opts) /\
    forall k : string,
      k ∉ ["kind"; "api_type"; "sr"; "title"; "text"; "flair_id"; "flair_text";
           "sendreplies"; "nsfw"; "spoiler"] ->
      form !! k = None.
Proof.
  eexists. split.
  { unfold SubmitSelf. erewrite submit_calls by reflexivity.
    by rewrite posted_app, posted_onePOST. }
  unfold SubmitSelfOptions.reflectValue.
  cbn [selfSubmit.Kind selfSubmit.Options].
  repeat split; try lookup_field.
  intros k Hk. rewrite !not_elem_of_cons in Hk.
  destruct Hk as (? & ? & ? & ? & ? & ? & ? & ? & ? & ? & _).
  lookup_field.
Qed.

(** X11: [SubmitURL] posts a form of the same make, with [url] and [resubmit]
    and never with [text]. *)
Theorem SubmitURL_form_fields s (opts : SubmitURLOptions.t) n :
  exists form : url.Values,
    posted (calls (SubmitURL s opts n).2) = (posted (calls n) ++ [("api/submit", form)])%list /\
    form !! "sr" = stringField (SubmitURLOptions.Subreddit opts) /\
    form !! "title" = stringField (SubmitURLOptions.Title opts) /\
    form !! "url" = stringField (SubmitURLOptions.URL opts) /\
    form !! "flair_id" = stringField (SubmitURLOptions.FlairID opts) /\
    form !! "flair_text" = stringField (SubmitURLOptions.FlairText opts) /\
    form !! "sendreplies" = boolPtrField (SubmitURLOptions.SendReplies opts) /\
    form !! "resubmit" = boolField (SubmitURLOptions.Resubmit opts) /\
    form !! "nsfw" = boolField (SubmitURLOptions.NSFW opts) /\
    form !! "spoiler" = boolField (SubmitURLOptions.Spoiler opts) /\
    forall k : string,
      k ∉ ["kind"; "api_type"; "sr"; "title"; "url"; "flair_id"; "flair_text";
           "sendreplies"; "resubmit"; "nsfw"; "spoiler"] ->
      form !! k = None.
Proof.
  eexists. split.
  { unfold SubmitURL. erewrite submit_calls by reflexivity.
    by rewrite posted_app, posted_onePOST. }
  unfold SubmitURLOptions.reflectValue.
  cbn [linkSubmit.Kind linkSubmit.Options].
  repeat split; try lookup_field.
  intros k Hk. rewrite !not_elem_of_cons in Hk.
  destruct Hk as (? & ? & ? & ? & ? & ? & ? & ? & ? & ? & ? & _).
  lookup_field.
Qed.

End SubmitForms.

(** ** The further properties at work on the fixture client *)

Lemma Hide_Unhide_pass_round_trip_witness :
  ["t3_a"] <> [] /\
  Hide (Fixture.link (inr "timeout")) ["t3_a"] Fixture.start =
    ((Some 200, Some "timeout"),
     {| world := [Fixture.Post "api/hide" {[ "id" := ["t3_a"] ]}];
        calls := [CallNewPostForm "api/hide" {[ "id" := ["t3_a"] ]};
                  CallDo (Fixture.Post "api/hide" {[ "id" := ["t3_a"] ]})] |}) /\
  Unhide (Fixture.linkRefused "no route") ["t3_a"] Fixture.start =
    ((None, Some "no route"),
     {| world := []; calls := [CallNewPostForm "api/unhide" {[ "id" := ["t3_a"] ]}] |}).
Proof.
  split; [discriminate|]. split.
  - exact (proj1 (Hide_Unhide_pass_round_trip (Fixture.link (inr "timeout")) ["t3_a"]
                    ltac:(discriminate))
             Fixture.start (Some 200) (inr "timeout")
             [Fixture.Post "api/hide" {[ "id" := ["t3_a"] ]}] eq_refl).
  - exact (proj2 (Hide_Unhide_pass_round_trip (Fixture.linkRefused "no route") ["t3_a"]
                    ltac:(discriminate))
             Fixture.start).
Defined.

Lemma single_id_methods_pass_round_trip_witness :
  Spoiler (Fixture.link (inl json.JNull)) "t3_a" Fixture.start =
    ((Some 200, None),
     {| world := [Fixture.Post "api/spoiler" {[ "id" := ["t3_a"] ]}];
        calls := [CallNewPostForm "api/spoiler" {[ "id" := ["t3_a"] ]};
                  CallDo (Fixture.Post "api/spoiler" {[ "id" := ["t3_a"] ]})] |}).
Proof.
  exact (proj1 (proj2 (proj2 (proj2 (proj2
           (single_id_methods_pass_round_trip (Fixture.link (inl json.JNull)) "t3_a")))))
           Fixture.start (Some 200) (inl json.JNull)
           [Fixture.Post "api/spoiler" {[ "id" := ["t3_a"] ]}] eq_refl).
Defined.

Lemma Hide_Unhide_post_recoverable_ids_witness :
  exists field : string,
    Strings.Split field "," = ["t3_a"; "t3_b"] /\
    posted (calls (Hide (Fixture.link (inl json.JNull)) ["t3_a"; "t3_b"] Fixture.start).2)
      = [("api/hide", {[ "id" := [field] ]})] /\
    posted (calls (Unhide (Fixture.link (inl json.JNull)) ["t3_a"; "t3_b"] Fixture.start).2)
      = [("api/unhide", {[ "id" := [field] ]})].
Proof.
  apply (Hide_Unhide_post_recoverable_ids
           (Fixture.link (inl json.JNull)) ["t3_a"; "t3_b"] Fixture.start).
  - discriminate.
  - repeat constructor.
Defined.

Lemma Hide_Unhide_join_of_app_witness :
  posted (calls (Hide (Fixture.link (inl json.JNull)) (["a"] ++ ["b"; "c"]) Fixture.start).2)
    = [("api/hide", {[ "id" := ["a,b,c"] ]})] /\
  posted (calls (Unhide (Fixture.link (inl json.JNull)) (["a"] ++ ["b"; "c"]) Fixture.start).2)
    = [("api/unhide", {[ "id" := ["a,b,c"] ]})].
Proof.
  apply (Hide_Unhide_join_of_app
           (Fixture.link (inl json.JNull)) ["a"] ["b"; "c"] Fixture.start);
    discriminate.
Defined.

Lemma submit_failures_witness :
  submit (Fixture.link (inl json.JNull)) (Fixture.anInt 7) Fixture.start =
    ((None, None, Some "query: Values() expects struct input. Got int"), Fixture.start) /\
  (submit (Fixture.linkRefused "no route") (selfSubmit.mk Fixture.selfPost "self")
     Fixture.start).1 = (None, None, Some "no route") /\
  (submit (Fixture.link (inr "timeout")) (selfSubmit.mk Fixture.selfPost "self")
     Fixture.start).1 = (None, Some 200, Some "timeout") /\
  (submit (Fixture.link (inl (json.JBool true))) (selfSubmit.mk Fixture.selfPost "self")
     Fixture.start).1 =
    (None, Some 200,
     Some "json: cannot unmarshal bool into Go value of type geddit.submittedLinkRoot").
Proof.
  pose (v := selfSubmit.mk Fixture.selfPost "self").
  pose (form := SubmitSelfOptions.reflectValue Fixture.selfPost
                  (query.addString "kind" "self" ∅)).
  pose (req := Fixture.Post "api/submit" (url.Set_ "api_type" "json" form)).
  split; [|split; [|split]].
  - exact (proj1 (submit_failures (Fixture.link (inl json.JNull)) (Fixture.anInt 7)
                    Fixture.start) _ eq_refl).
  - exact (f_equal fst
             (proj1 (proj2 (submit_failures (Fixture.linkRefused "no route") v Fixture.start))
                form "no route" eq_refl eq_refl)).
  - exact (f_equal fst
             (proj2 (proj2 (submit_failures (Fixture.link (inr "timeout")) v Fixture.start))
                form req (Some 200) (inr "timeout") [req] "timeout"
                eq_refl eq_refl eq_refl (or_introl eq_refl))).
  - exact (f_equal fst
             (proj2 (proj2 (submit_failures (Fixture.link (inl (json.JBool true))) v
                              Fixture.start))
                form req (Some 200) (inl (json.JBool true)) [req] _
                eq_refl eq_refl eq_refl
                (or_intror (ex_intro _ (json.JBool true) (conj eq_refl eq_refl))))).
Defined.

Lemma submit_returns_decoded_fields_witness :
  (SubmitURL (Fixture.link (inl Fixture.submitted)) Fixture.linkPost Fixture.start).1 =
    (Some {| Submitted.ID := "abc"; Submitted.FullID := "t3_abc"; Submitted.URL := "u" |},
     Some 200, None).
Proof.
  pose (v := linkSubmit.mk Fixture.linkPost "link").
  pose (form := SubmitURLOptions.reflectValue Fixture.linkPost
                  (query.addString "kind" "link" ∅)).
  pose (req := Fixture.Post "api/submit" (url.Set_ "api_type" "json" form)).
  exact (f_equal fst
           (submit_returns_decoded_fields (Fixture.link (inl Fixture.submitted)) v
              Fixture.start form req (Some 200) [req] "abc" "t3_abc" "u"
              eq_refl eq_refl eq_refl)).
Defined.
